(** * A shallow embedding of the command router of [bot.py]

    The bot answers three slash commands ([/start], [/play], [/menu]) and
    the presses of the inline buttons that the menu attaches.  Every
    handler of the source is a coroutine that talks to the messaging
    platform through a few primitives ([reply_text], [answer],
    [delete_my_commands], [set_my_commands]) and that logs what it did.

    The embedding keeps that shape.  A handler is a computation in a small
    state-and-exception monad.  The state is the [World]: the trace of
    everything the process did so far (platform calls, log records, prints)
    and the list of outcomes that the platform will give to the next calls.
    A call that the platform refuses raises, exactly where the Python call
    would raise, and [try_except] catches as [try: ... except Exception:]
    does. *)

From Stdlib Require Import String List Bool ZArith DecimalString.
Import ListNotations.
Open Scope list_scope.
Open Scope string_scope.

(** ** Python strings *)

Module PyStr.

(** [s.startswith(p)] *)
Definition startswith (s p : string) : bool := String.prefix p s.

(** The scan of [s.replace(old, new)] for a non-empty [old]: left to
    right, every non-overlapping occurrence of [old] is replaced.  [skip]
    counts the characters of the occurrence just matched that are still
    to be dropped. *)
Fixpoint replace_scan (old new : string) (skip : nat) (s : string) : string :=
  match s with
  | EmptyString => EmptyString
  | String c rest =>
      match skip with
      | S k => replace_scan old new k rest
      | O =>
          if String.prefix old s
          then new ++ replace_scan old new (String.length old - 1) rest
          else String c (replace_scan old new 0 rest)
      end
  end.

(** With an empty [old], Python puts [new] before every character and at
    the end. *)
Fixpoint replace_empty (new s : string) : string :=
  match s with
  | EmptyString => new
  | String c rest => new ++ String c (replace_empty new rest)
  end.

(** [s.replace(old, new)] *)
Definition replace (s old new : string) : string :=
  match old with
  | EmptyString => replace_empty new s
  | String _ _ => replace_scan old new 0 s
  end.

(** [s[n:]] *)
Fixpoint drop (n : nat) (s : string) : string :=
  match n, s with
  | O, _ => s
  | S _, EmptyString => EmptyString
  | S k, String _ rest => drop k rest
  end.

(** [str(n)] for an integer *)
Definition str_int (n : Z) : string := NilZero.string_of_int (Z.to_int n).

(** Truth value of an optional string: [None] and [""] are falsy. *)
Definition truthy (o : option string) : bool :=
  match o with
  | None => false
  | Some EmptyString => false
  | Some (String _ _) => true
  end.

End PyStr.

(** ** The data of the platform library that the source uses *)

Record BotCommand := mkBotCommand {
  command : string;
  description : string
}.

(** [InlineKeyboardButton(text, url=..., callback_data=...)] *)
Record InlineKeyboardButton := mkButton {
  text : string;
  url : option string;
  callback_data : option string
}.

(** [InlineKeyboardMarkup(keyboard)]: rows of buttons *)
Definition InlineKeyboardMarkup := list (list InlineKeyboardButton).

Record User := mkUser { user_id : Z }.

Record Message := mkMessage { chat_id : Z; message_id : Z }.

Record CallbackQuery := mkCallbackQuery {
  query_id : string;
  data : option string;
  query_message : option Message
}.

Record Update := mkUpdate {
  message : option Message;
  callback_query : option CallbackQuery;
  effective_user : option User
}.

(** ** Constants of the module *)

Definition LOTTERY_URL : string := "https://tinyurl.com/muwymx93".
Definition BUTTON_TEXT : string := "Play lottery".
Definition START_MESSAGE : string := "Click the button below to play lottery:".
Definition MENU_TITLE : string := "📋 Command Menu".

Definition BOT_COMMANDS : list BotCommand :=
  [ mkBotCommand "start" "Start the bot";
    mkBotCommand "play" "Open Lottery";
    mkBotCommand "menu" "Show command menu" ].

(** The literal that [main] passes to [os.getenv] as default. *)
Definition EMBEDDED_TOKEN : string :=
  "8494619697:AAG91Y2BkW-_u__Vob7czhcmQoPrxcBijpM".

(** ** What the process does to the outside *)

Inductive Callback :=
| cb_start | cb_play_command | cb_menu_command
| cb_button_callback | cb_error_handler | cb_post_init.

Inductive Handler :=
| CommandHandler (name : string) (cb : Callback)
| CallbackQueryHandler (cb : Callback).

(** Calls into the platform library.  Each of them can raise. *)
Inductive Call :=
| ReplyText (to : Message) (body : string) (parse_mode : option string)
            (reply_markup : option InlineKeyboardMarkup)
| Answer (q : string) (notice : option string) (show_alert : bool)
| DeleteMyCommands
| SetMyCommands (cmds : list BotCommand)
| BuildApplication (token : string) (post_init_hook : Callback)
| AddHandler (h : Handler)
| AddErrorHandler (cb : Callback)
| RunPolling (drop_pending_updates : bool).

Inductive Level := INFO | WARNING | ERROR.

Inductive Event :=
| Called (c : Call) (raised : bool)
| Logged (lvl : Level) (msg : string)
| Printed (msg : string).

(** ** The monad of the handlers *)

Inductive Exn :=
| TelegramError (msg : string)
| AttributeError (msg : string).

Definition str_exn (e : Exn) : string :=
  match e with
  | TelegramError msg => msg
  | AttributeError msg => msg
  end.

Inductive Result (A : Type) :=
| Ok (a : A)
| Raise (e : Exn).
Arguments Ok {A} a.
Arguments Raise {A} e.

(** [pending] holds the outcome of the next platform calls, oldest first:
    [None] lets the call through, [Some msg] makes it raise a
    [TelegramError] with that message.  When the list is used up every
    call goes through. *)
Record World := mkWorld {
  trace : list Event;
  pending : list (option string)
}.

Definition M (A : Type) : Type := World -> Result A * World.

Definition ret {A} (a : A) : M A := fun w => (Ok a, w).

Definition bind {A B} (m : M A) (k : A -> M B) : M B :=
  fun w =>
    match m w with
    | (Ok a, w') => k a w'
    | (Raise e, w') => (Raise e, w')
    end.

Definition raise {A} (e : Exn) : M A := fun w => (Raise e, w).

(** [try: body  except Exception as e: handler e] *)
Definition try_except {A} (body : M A) (handler : Exn -> M A) : M A :=
  fun w =>
    match body w with
    | (Ok a, w') => (Ok a, w')
    | (Raise e, w') => handler e w'
    end.

Declare Scope py_scope.
Delimit Scope py_scope with py.
Notation "x <- m ;; k" := (bind m (fun x => k))
  (at level 61, m at next level, right associativity) : py_scope.
Notation "m ;; k" := (bind m (fun _ => k))
  (at level 61, right associativity) : py_scope.
Open Scope py_scope.

Definition emit (e : Event) : M unit :=
  fun w => (Ok tt, mkWorld (trace w ++ [e])%list (pending w)).

(** A platform call: it is recorded together with its outcome. *)
Definition invoke (c : Call) : M unit :=
  fun w =>
    match pending w with
    | Some msg :: rest =>
        (Raise (TelegramError msg), mkWorld (trace w ++ [Called c true])%list rest)
    | None :: rest => (Ok tt, mkWorld (trace w ++ [Called c false])%list rest)
    | [] => (Ok tt, mkWorld (trace w ++ [Called c false])%list [])
    end.

Definition log (lvl : Level) (msg : string) : M unit := emit (Logged lvl msg).
Definition print (msg : string) : M unit := emit (Printed msg).

(** [update.effective_user.id]: an [AttributeError] when there is no user *)
Definition effective_user_id (update : Update) : M Z :=
  match effective_user update with
  | Some u => ret (user_id u)
  | None => raise (AttributeError "'NoneType' object has no attribute 'id'")
  end.

(** [message.reply_text(text, parse_mode=..., reply_markup=...)] *)
Definition reply_text (m : Message) (body : string) (parse_mode : option string)
    (reply_markup : option InlineKeyboardMarkup) : M unit :=
  invoke (ReplyText m body parse_mode reply_markup).

(** [query.answer(text, show_alert=...)] *)
Definition answer (q : CallbackQuery) (notice : option string) (show_alert : bool)
    : M unit :=
  invoke (Answer (query_id q) notice show_alert).

(** Running a computation from a fresh trace, against the given outcomes. *)
Definition run {A} (m : M A) (outcomes : list (option string))
    : Result A * list Event :=
  let (r, w) := m (mkWorld [] outcomes) in (r, trace w).

Definition result_of {A} (m : M A) (outcomes : list (option string)) : Result A :=
  fst (run m outcomes).

Definition events_of {A} (m : M A) (outcomes : list (option string)) : list Event :=
  snd (run m outcomes).

(** ** The handlers *)

(** [start]: the /start command *)
Definition start (update : Update) : M unit :=
  try_except
    (match message update with
     | None => log WARNING "Received update without message in start handler"
     | Some m =>
         reply_text m
           "Bot started. Use /play to open Lottery or /menu to see available commands."
           None None ;;
         uid <- effective_user_id update ;;
         log INFO ("Start acknowledgement sent to user " ++ PyStr.str_int uid)
     end)
    (fun e =>
       log ERROR ("Error in start handler: " ++ str_exn e) ;;
       match message update with
       | Some m =>
           try_except
             (reply_text m "Sorry, an error occurred. Please try again later."
                None None)
             (fun _ => log ERROR "Failed to send error message to user")
       | None => ret tt
       end).

(** [play_command]: the /play command *)
Definition play_command (update : Update) : M unit :=
  try_except
    (match message update with
     | None => log WARNING "Received update without message in play handler"
     | Some m =>
         let keyboard := [ [ mkButton BUTTON_TEXT (Some LOTTERY_URL) None ] ] in
         let reply_markup : InlineKeyboardMarkup := keyboard in
         reply_text m START_MESSAGE None (Some reply_markup) ;;
         uid <- effective_user_id update ;;
         log INFO ("Play command executed by user " ++ PyStr.str_int uid)
     end)
    (fun e =>
       log ERROR ("Error in play handler: " ++ str_exn e) ;;
       match message update with
       | Some m =>
           try_except
             (reply_text m "Sorry, an error occurred. Please try again later."
                None None)
             (fun _ => log ERROR "Failed to send error message to user")
       | None => ret tt
       end).

(** The body of the loop [for cmd in BOT_COMMANDS: keyboard.append([...])]
    of the menu: one row, holding one callback button, is appended. *)
Definition append_command_row (keyboard : InlineKeyboardMarkup) (cmd : BotCommand)
    : InlineKeyboardMarkup :=
  List.app keyboard
    [ [ mkButton ("▶ " ++ command cmd) None (Some ("cmd_" ++ command cmd)) ] ].

(** [menu_command]: the /menu command *)
Definition menu_command (update : Update) : M unit :=
  try_except
    (match message update with
     | None => log WARNING "Received update without message in menu handler"
     | Some m =>
         let keyboard : InlineKeyboardMarkup := [] in
         let menu_text := MENU_TITLE in
         let keyboard := fold_left append_command_row BOT_COMMANDS keyboard in
         let reply_markup : InlineKeyboardMarkup := keyboard in
         reply_text m menu_text (Some "HTML") (Some reply_markup) ;;
         uid <- effective_user_id update ;;
         log INFO ("Menu command executed by user " ++ PyStr.str_int uid)
     end)
    (fun e =>
       log ERROR ("Error in menu handler: " ++ str_exn e) ;;
       match message update with
       | Some m =>
           try_except
             (reply_text m
                "Sorry, an error occurred while showing the menu. Please try again later."
                None None)
             (fun _ => log ERROR "Failed to send error message to user")
       | None => ret tt
       end).

(** The [try] block of [button_callback], once the query, its data and
    its message are known to be there: from [await query.answer()] on. *)
Definition button_dispatch (update : Update) (query : CallbackQuery)
    (query_data : string) (m : Message) : M unit :=
  answer query None false ;;
  uid <- effective_user_id update ;;
  log INFO ("Button callback received: " ++ query_data ++ " from user "
            ++ PyStr.str_int uid) ;;
  if PyStr.startswith query_data "cmd_" then
    let command_name := PyStr.replace query_data "cmd_" "" in
    if String.eqb command_name "start" then
      reply_text m
        "Bot started. Use /play to open Lottery or /menu to see available commands."
        None None ;;
      uid <- effective_user_id update ;;
      log INFO ("Start acknowledgement executed via button by user "
                ++ PyStr.str_int uid)
    else if String.eqb command_name "play" then
      let keyboard := [ [ mkButton BUTTON_TEXT (Some LOTTERY_URL) None ] ] in
      let reply_markup : InlineKeyboardMarkup := keyboard in
      reply_text m START_MESSAGE None (Some reply_markup) ;;
      uid <- effective_user_id update ;;
      log INFO ("Play command executed via button by user " ++ PyStr.str_int uid)
    else if String.eqb command_name "menu" then
      let keyboard : InlineKeyboardMarkup := [] in
      let menu_text := MENU_TITLE in
      let keyboard := fold_left append_command_row BOT_COMMANDS keyboard in
      let reply_markup : InlineKeyboardMarkup := keyboard in
      reply_text m menu_text (Some "HTML") (Some reply_markup) ;;
      uid <- effective_user_id update ;;
      log INFO ("Menu command executed via button by user " ++ PyStr.str_int uid)
    else ret tt
  else ret tt.

(** The whole [try] block of [button_callback]. *)
Definition button_callback_try (update : Update) : M unit :=
  match callback_query update with
  | None => log WARNING "Received update without callback_query"
  | Some query =>
      if negb (PyStr.truthy (data query)) then
        log WARNING "Received callback_query without data" ;;
        answer query (Some "Invalid button data") false
      else
        match query_message query with
        | None =>
            log WARNING "Received callback_query without message" ;;
            answer query (Some "Message not found") false
        | Some m =>
            (* [query.data] is a non-empty string on this branch *)
            button_dispatch update query
              (match data query with Some d => d | None => "" end) m
        end
  end.

(** The [except Exception as e] block of [button_callback]. *)
Definition button_callback_except (update : Update) (e : Exn) : M unit :=
  log ERROR ("Error in button_callback: " ++ str_exn e) ;;
  match callback_query update with
  | Some query =>
      try_except
        (answer query (Some "Sorry, an error occurred. Please try again.") true)
        (fun _ => log ERROR "Failed to send error answer to user")
  | None => ret tt
  end.

(** [button_callback]: a press of an inline button *)
Definition button_callback (update : Update) : M unit :=
  try_except (button_callback_try update) (button_callback_except update).

(** [post_init]: publishing the command list when the application is built *)
Definition post_init : M unit :=
  try_except
    (try_except
       (invoke DeleteMyCommands)
       (fun delete_error =>
          log WARNING
            ("Could not delete old commands (this is okay if none exist): "
             ++ str_exn delete_error)) ;;
     invoke (SetMyCommands BOT_COMMANDS) ;;
     log INFO
       "Bot commands menu initialized successfully - start, play and menu commands set")
    (fun e => log ERROR ("Error in post_init: " ++ str_exn e)).

(** The process environment: the variables that are set, with their values. *)
Definition Environ := list (string * string).

(** [os.getenv(key, default)] *)
Fixpoint getenv (env : Environ) (key default : string) : string :=
  match env with
  | [] => default
  | (k, v) :: rest => if String.eqb k key then v else getenv rest key default
  end.

(** Whether a variable is set at all. *)
Definition is_set (env : Environ) (key : string) : bool :=
  existsb (fun kv => String.eqb (fst kv) key) env.

(** [main] *)
Definition main (env : Environ) : M unit :=
  let TOKEN := getenv env "BOT_TOKEN" EMBEDDED_TOKEN in
  if negb (PyStr.truthy (Some TOKEN)) then
    log ERROR "Bot token not found! Please set BOT_TOKEN environment variable."
  else
    try_except
      (invoke (BuildApplication TOKEN cb_post_init) ;;
       invoke (AddHandler (CommandHandler "start" cb_start)) ;;
       invoke (AddHandler (CommandHandler "play" cb_play_command)) ;;
       invoke (AddHandler (CommandHandler "menu" cb_menu_command)) ;;
       invoke (AddHandler (CallbackQueryHandler cb_button_callback)) ;;
       invoke (AddErrorHandler cb_error_handler) ;;
       log INFO "Bot is starting..." ;;
       print "Bot is running..." ;;
       invoke (RunPolling true))
      (fun e =>
         log ERROR ("Failed to start bot: " ++ str_exn e) ;;
         print ("Error starting bot: " ++ str_exn e)).

(** What the library passes to [error_handler] as [update]: the annotation
    is [object], and the handler tests [isinstance(update, Update)]. *)
Inductive PyObject :=
| UpdateObject (update : Update)
| OtherObject.

(** [error_handler]: called by the library with the exception that a
    handler let through, here [context.error] *)
Definition error_handler (update : PyObject) (context_error : Exn) : M unit :=
  log ERROR ("Exception while handling an update: " ++ str_exn context_error) ;;
  match update with
  | UpdateObject u =>
      match message u with
      | Some m =>
          try_except
            (reply_text m
               "Sorry, an unexpected error occurred. Please try again later."
               None None)
            (fun _ => log ERROR "Failed to send error message to user")
      | None => ret tt
      end
  | OtherObject => ret tt
  end.

(** ** What an observer of the platform sees *)

(** The reply that a [reply_text] call hands over for delivery. *)
Record OutboundReply := mkReply {
  reply_body : string;
  reply_parse_mode : option string;
  reply_keyboard : option InlineKeyboardMarkup
}.

(** The actions attached to a reply, in the order of the keyboard. *)
Definition actions (r : OutboundReply) : list InlineKeyboardButton :=
  match reply_keyboard r with
  | None => []
  | Some keyboard => concat keyboard
  end.

(** The replies handed over during a run, oldest first, delivered or not. *)
Fixpoint replies (tr : list Event) : list OutboundReply :=
  match tr with
  | [] => []
  | Called (ReplyText _ body mode keyboard) _ :: rest =>
      mkReply body mode keyboard :: replies rest
  | _ :: rest => replies rest
  end.

(** The acknowledgements of a button press attempted during a run: the
    notice shown to the requester, if any, and whether it is an alert. *)
Fixpoint acknowledgements (tr : list Event) : list (option string * bool) :=
  match tr with
  | [] => []
  | Called (Answer _ notice alert) _ :: rest =>
      (notice, alert) :: acknowledgements rest
  | _ :: rest => acknowledgements rest
  end.

(** All the platform calls of a run with their outcome. *)
Fixpoint platform_calls (tr : list Event) : list (Call * bool) :=
  match tr with
  | [] => []
  | Called c raised :: rest => (c, raised) :: platform_calls rest
  | _ :: rest => platform_calls rest
  end.

(** The log records of a run. *)
Fixpoint log_records (tr : list Event) : list (Level * string) :=
  match tr with
  | [] => []
  | Logged lvl msg :: rest => (lvl, msg) :: log_records rest
  | _ :: rest => log_records rest
  end.

(** A platform that lets every call through. *)
Definition reliable (outcomes : list (option string)) : Prop :=
  Forall (fun o => o = None) outcomes.

(** The three command names that the dispatch of a button press knows. *)
Definition known_command (name : string) : bool :=
  String.eqb name "start" || String.eqb name "play" || String.eqb name "menu".

(** The command name that [button_callback] recovers from a payload. *)
Definition command_name (payload : string) : string :=
  PyStr.replace payload "cmd_" "".

(** Follows the spec's words, not the source: the payload with its leading
    prefix stripped.  It is what [command_name] is compared with. *)
Definition strip_prefix_spec (payload : string) : string :=
  if PyStr.startswith payload "cmd_"
  then PyStr.drop (String.length "cmd_") payload
  else payload.

(** The fixed replies, as the handlers build them. *)
Definition start_reply : OutboundReply :=
  mkReply
    "Bot started. Use /play to open Lottery or /menu to see available commands."
    None None.

Definition play_reply : OutboundReply :=
  mkReply START_MESSAGE None
    (Some [ [ mkButton BUTTON_TEXT (Some LOTTERY_URL) None ] ]).

Definition menu_reply : OutboundReply :=
  mkReply MENU_TITLE (Some "HTML")
    (Some (fold_left append_command_row BOT_COMMANDS [])).

(** The button that the menu attaches for one command. *)
Definition menu_button (cmd : BotCommand) : InlineKeyboardButton :=
  mkButton ("▶ " ++ command cmd) None (Some ("cmd_" ++ command cmd)).

(** [added] is what a computation run from [w] adds to the replies that the
    trace of [w] already holds. *)
Definition adds_replies {A} (m : M A) (w : World) (added : list OutboundReply)
    : Prop :=
  replies (trace (snd (m w))) = (replies (trace w) ++ added)%list.

(** The fallback replies of the [except] blocks. *)
Definition apology_reply : OutboundReply :=
  mkReply "Sorry, an error occurred. Please try again later." None None.

Definition menu_apology_reply : OutboundReply :=
  mkReply
    "Sorry, an error occurred while showing the menu. Please try again later."
    None None.

Definition unexpected_apology_reply : OutboundReply :=
  mkReply "Sorry, an unexpected error occurred. Please try again later."
    None None.

(** The notices that [button_callback] can attach to an acknowledgement. *)
Definition fixed_acknowledgements : list (option string * bool) :=
  [ (None, false);
    (Some "Invalid button data", false);
    (Some "Message not found", false);
    (Some "Sorry, an error occurred. Please try again.", true) ].

(** The platform calls of the [try] block of [main], in program order. *)
Definition startup_calls (token : string) : list Call :=
  [ BuildApplication token cb_post_init;
    AddHandler (CommandHandler "start" cb_start);
    AddHandler (CommandHandler "play" cb_play_command);
    AddHandler (CommandHandler "menu" cb_menu_command);
    AddHandler (CallbackQueryHandler cb_button_callback);
    AddErrorHandler cb_error_handler;
    RunPolling true ].

(** Calls that all went through. *)
Definition succeeded (calls : list Call) : list (Call * bool) :=
  map (fun c => (c, false)) calls.

(** Whether [old] occurs somewhere in [s]. *)
Fixpoint occurs (old s : string) : bool :=
  match s with
  | EmptyString => String.prefix old s
  | String _ rest => String.prefix old s || occurs old rest
  end.

(** What a complete press is answered with, read off the branches of
    [button_callback]. *)
Definition dispatched_replies (payload : string) : list OutboundReply :=
  if PyStr.startswith payload "cmd_" then
    if String.eqb (command_name payload) "start" then [start_reply]
    else if String.eqb (command_name payload) "play" then [play_reply]
    else if String.eqb (command_name payload) "menu" then [menu_reply]
    else []
  else [].

(** ** Sample events *)

Module Sample.

Definition chat : Message := mkMessage 1001 57.
Definition other_chat : Message := mkMessage 2002 3.
Definition alice : User := mkUser 42.
Definition bob : User := mkUser 77.

(** A slash command sent by [alice]. *)
Definition slash : Update := mkUpdate (Some chat) None (Some alice).

(** The same command sent by [bob] from another chat. *)
Definition slash_bob : Update := mkUpdate (Some other_chat) None (Some bob).

(** A press by [alice] of a button carrying [payload]. *)
Definition press (payload : string) : Update :=
  mkUpdate None
    (Some (mkCallbackQuery "query-1" (Some payload) (Some chat)))
    (Some alice).

(** An environment in which [BOT_TOKEN] is not set. *)
Definition no_token_env : Environ := [("HOME", "/home/bot"); ("LANG", "C.UTF-8")].

(** Two histories of the process, before the same platform behaviour. *)
Definition fresh_world : World := mkWorld [] [Some "Timed out"].
Definition busy_world : World :=
  mkWorld
    [ Called (ReplyText chat "Click the button below to play lottery:" None None)
        false;
      Logged INFO "Play command executed by user 42" ]
    [Some "Timed out"].

(** A slash command that arrives without its message. *)
Definition no_message : Update := mkUpdate None None (Some alice).

(** A slash command whose sender is not known. *)
Definition anonymous : Update := mkUpdate (Some chat) None None.

(** A press whose sender is not known. *)
Definition anonymous_press (payload : string) : Update :=
  mkUpdate None
    (Some (mkCallbackQuery "query-2" (Some payload) (Some chat))) None.

(** A press whose message is gone. *)
Definition orphan_press (payload : string) : Update :=
  mkUpdate None (Some (mkCallbackQuery "query-3" (Some payload) None))
    (Some alice).

(** An environment that sets the token, and one that sets it empty. *)
Definition token_env : Environ := [("HOME", "/home/bot"); ("BOT_TOKEN", "123:abc")].
Definition empty_token_env : Environ := [("BOT_TOKEN", "")].

End Sample.

(** ** Basic facts *)

Lemma reliable_inv (outcomes : list (option string)) :
  reliable outcomes ->
  outcomes = [] \/ exists rest, outcomes = None :: rest /\ reliable rest.
Proof.
  intros H. destruct outcomes as [|o rest]; [now left|right].
  inversion H; subst. now exists rest.
Qed.

Lemma reliable_nil : reliable [].
Proof. constructor. Qed.

(** One more platform call goes through: split the outcomes accordingly. *)
Ltac call_through H :=
  let rest := fresh "rest" in
  let H' := fresh "Hrest" in
  destruct (reliable_inv _ H) as [-> | (rest & -> & H')];
  [ | clear H; rename H' into H ].

(** Case analysis on what the platform does with the next three calls. *)
Ltac next_three_calls outcomes :=
  destruct outcomes as [|[?|] [|[?|] [|[?|] ?]]].

(** The loop of the menu appends one row per command, in order. *)
Lemma menu_loop (cmds : list BotCommand) (keyboard : InlineKeyboardMarkup) :
  fold_left append_command_row cmds keyboard
  = (keyboard ++ map (fun cmd => [menu_button cmd]) cmds)%list.
Proof.
  revert keyboard. induction cmds as [|cmd cmds IH]; intros keyboard; simpl.
  - now rewrite app_nil_r.
  - rewrite IH. unfold append_command_row. now rewrite <- app_assoc.
Qed.

Lemma concat_singleton_rows {A B} (f : A -> B) (l : list A) :
  concat (map (fun a => [f a]) l) = map f l.
Proof. induction l as [|a l IH]; simpl; [reflexivity | now rewrite IH]. Qed.

Lemma append_empty_r (s : string) : s ++ "" = s.
Proof. induction s as [|c s IH]; simpl; [reflexivity | now rewrite IH]. Qed.

(** Every button of the menu is a callback button whose payload is the
    prefix followed by the command name and whose label holds the name. *)
Lemma menu_buttons_match (cmds : list BotCommand) :
  Forall2
    (fun button cmd =>
       url button = None
       /\ callback_data button = Some ("cmd_" ++ command cmd)
       /\ exists before after, text button = before ++ command cmd ++ after)
    (map menu_button cmds) cmds.
Proof.
  induction cmds as [|cmd cmds IH]; simpl; constructor; [|exact IH].
  repeat split. exists "▶ ", "". unfold menu_button; simpl text.
  now rewrite append_empty_r.
Qed.

Lemma menu_reply_actions : actions menu_reply = map menu_button BOT_COMMANDS.
Proof.
  unfold actions, menu_reply; cbv beta iota delta [reply_keyboard].
  rewrite menu_loop. apply (concat_singleton_rows menu_button).
Qed.

Lemma replies_app (t t' : list Event) :
  replies (t ++ t') = (replies t ++ replies t')%list.
Proof.
  induction t as [|[[] ?| |] t IH]; simpl; try exact IH; try reflexivity.
  now rewrite IH.
Qed.

(** [str.replace] leaves a string in which [old] does not occur as it is. *)
Lemma replace_scan_without_occurrence (old new s : string) :
  occurs old s = false -> PyStr.replace_scan old new 0 s = s.
Proof.
  induction s as [|c s IH]; [reflexivity|].
  intros H. cbn [occurs] in H. apply orb_false_iff in H as [Hhere Hrest].
  cbn [PyStr.replace_scan]. rewrite Hhere. now rewrite IH.
Qed.

Lemma startswith_cmd_inv (d : string) :
  PyStr.startswith d "cmd_" = true -> d = "cmd_" ++ PyStr.drop 4 d.
Proof.
  unfold PyStr.startswith. intros H.
  do 4 (destruct d as [|? d]; [discriminate H|];
        cbn [String.prefix] in H;
        match type of H with
        | (if ?t then _ else _) = true =>
            destruct t as [<-|_]; [|discriminate H]
        end).
  reflexivity.
Qed.

(** On a payload in which the prefix occurs at the start only, deleting
    every occurrence is stripping the prefix. *)
Lemma command_name_strips_prefix (d : string) :
  PyStr.startswith d "cmd_" = true ->
  occurs "cmd_" (PyStr.drop 4 d) = false ->
  command_name d = PyStr.drop 4 d /\ strip_prefix_spec d = PyStr.drop 4 d.
Proof.
  intros Hp Hocc. split.
  - pose proof (startswith_cmd_inv d Hp) as Hd.
    remember (PyStr.drop 4 d) as r eqn:Hr. rewrite Hd.
    unfold command_name, PyStr.replace. cbn.
    replace (String.prefix "" r) with true by (destruct r; reflexivity).
    now apply replace_scan_without_occurrence.
  - unfold strip_prefix_spec. now rewrite Hp.
Qed.

Lemma getenv_unset (env : Environ) (key default : string) :
  is_set env key = false -> getenv env key default = default.
Proof.
  induction env as [|[k v] env IH]; simpl; [reflexivity|].
  intros H. apply orb_false_iff in H as [Hk Hrest].
  rewrite Hk. now apply IH.
Qed.

(** On the payloads that the menu itself issues, the recovered name is the
    command, and it is what stripping the prefix gives. *)
Lemma issued_payloads_recover_command :
  Forall
    (fun cmd =>
       command_name ("cmd_" ++ command cmd) = command cmd
       /\ strip_prefix_spec ("cmd_" ++ command cmd) = command cmd)
    BOT_COMMANDS.
Proof. repeat constructor. Qed.

(** The guard of [main] is reached only by a token that is set and empty:
    then the condition is logged and nothing else happens. *)
Lemma main_with_empty_token_gives_up (outcomes : list (option string)) :
  run (main [("BOT_TOKEN", "")]) outcomes
  = (Ok tt,
     [ Logged ERROR
         "Bot token not found! Please set BOT_TOKEN environment variable." ]).
Proof. reflexivity. Qed.

(** ** The slash commands *)

(** C8.  For every /start event with its message, the first reply that
    [start] hands over is the fixed acknowledgement text with no action
    attached; when the requester is known and the platform delivers, the
    handler returns normally and that reply is the only one. *)
Theorem start_replies_fixed_text (update : Update) (m : Message)
    (outcomes : list (option string)) :
  message update = Some m ->
  hd_error (replies (events_of (start update) outcomes)) = Some start_reply
  /\ reply_body start_reply
     = "Bot started. Use /play to open Lottery or /menu to see available commands."
  /\ actions start_reply = []
  /\ (forall usr, effective_user update = Some usr -> reliable outcomes ->
      result_of (start update) outcomes = Ok tt
      /\ replies (events_of (start update) outcomes) = [start_reply]).
Proof.
  intros Hm. destruct update as [msg cq usr0]; simpl in Hm; subst msg.
  split; [|split; [reflexivity|split; [reflexivity|]]].
  - destruct usr0 as [usr|], outcomes as [|[err|] [|[err'|] rest]]; reflexivity.
  - intros usr Hu Hrel. simpl in Hu; subst usr0.
    call_through Hrel; split; reflexivity.
Qed.

Lemma start_replies_fixed_text_witness :
  message Sample.slash = Some Sample.chat
  /\ result_of (start Sample.slash) [] = Ok tt
  /\ replies (events_of (start Sample.slash) []) = [start_reply].
Proof.
  split; [reflexivity|].
  exact (proj2 (proj2 (proj2
           (start_replies_fixed_text Sample.slash Sample.chat [] eq_refl)))
           Sample.alice eq_refl reliable_nil).
Defined.

(** C6.  For every /play event with its message, the first reply that
    [play_command] hands over has the fixed prompt as text and exactly one
    action, a link button labelled with the fixed button text whose URL is
    the lottery URL; when the requester is known and the platform delivers,
    the handler returns normally and that reply is the only one. *)
Theorem play_replies_one_link (update : Update) (m : Message)
    (outcomes : list (option string)) :
  message update = Some m ->
  hd_error (replies (events_of (play_command update) outcomes)) = Some play_reply
  /\ reply_body play_reply = START_MESSAGE
  /\ actions play_reply = [ mkButton BUTTON_TEXT (Some LOTTERY_URL) None ]
  /\ (forall usr, effective_user update = Some usr -> reliable outcomes ->
      result_of (play_command update) outcomes = Ok tt
      /\ replies (events_of (play_command update) outcomes) = [play_reply]).
Proof.
  intros Hm. destruct update as [msg cq usr0]; simpl in Hm; subst msg.
  split; [|split; [reflexivity|split; [reflexivity|]]].
  - destruct usr0 as [usr|], outcomes as [|[err|] [|[err'|] rest]]; reflexivity.
  - intros usr Hu Hrel. simpl in Hu; subst usr0.
    call_through Hrel; split; reflexivity.
Qed.

Lemma play_replies_one_link_witness :
  message Sample.slash = Some Sample.chat
  /\ result_of (play_command Sample.slash) [] = Ok tt
  /\ replies (events_of (play_command Sample.slash) []) = [play_reply].
Proof.
  split; [reflexivity|].
  exact (proj2 (proj2 (proj2
           (play_replies_one_link Sample.slash Sample.chat [] eq_refl)))
           Sample.alice eq_refl reliable_nil).
Defined.

(** C5.  For every /menu event with its message, the first reply that
    [menu_command] hands over has the menu title as text and carries one
    callback button per command of [BOT_COMMANDS], in that order; the
    payload of each is ["cmd_"] followed by the command name and its label
    contains the name, so that the payloads are [cmd_start], [cmd_play],
    [cmd_menu].  When the requester is known and the platform delivers,
    the handler returns normally and that reply is the only one. *)
Theorem menu_replies_one_button_per_command (update : Update) (m : Message)
    (outcomes : list (option string)) :
  message update = Some m ->
  hd_error (replies (events_of (menu_command update) outcomes)) = Some menu_reply
  /\ reply_body menu_reply = MENU_TITLE
  /\ actions menu_reply = map menu_button BOT_COMMANDS
  /\ Forall2
       (fun button cmd =>
          url button = None
          /\ callback_data button = Some ("cmd_" ++ command cmd)
          /\ exists before after, text button = before ++ command cmd ++ after)
       (actions menu_reply) BOT_COMMANDS
  /\ map callback_data (actions menu_reply)
     = [Some "cmd_start"; Some "cmd_play"; Some "cmd_menu"]
  /\ (forall usr, effective_user update = Some usr -> reliable outcomes ->
      result_of (menu_command update) outcomes = Ok tt
      /\ replies (events_of (menu_command update) outcomes) = [menu_reply]).
Proof.
  intros Hm. destruct update as [msg cq usr0]; simpl in Hm; subst msg.
  split; [|split; [reflexivity|split; [exact menu_reply_actions|split; [|split]]]].
  - destruct usr0 as [usr|], outcomes as [|[err|] [|[err'|] rest]]; reflexivity.
  - rewrite menu_reply_actions. apply menu_buttons_match.
  - rewrite menu_reply_actions. reflexivity.
  - intros usr Hu Hrel. simpl in Hu; subst usr0.
    call_through Hrel; split; reflexivity.
Qed.

Lemma menu_replies_one_button_per_command_witness :
  message Sample.slash = Some Sample.chat
  /\ result_of (menu_command Sample.slash) [] = Ok tt
  /\ replies (events_of (menu_command Sample.slash) []) = [menu_reply].
Proof.
  split; [reflexivity|].
  exact (proj2 (proj2 (proj2 (proj2 (proj2
           (menu_replies_one_button_per_command Sample.slash Sample.chat []
              eq_refl)))))
           Sample.alice eq_refl reliable_nil).
Defined.

(** C10.  Two events of the same kind whose requesters and chats differ,
    handled after whatever histories, get the same replies, text and
    actions alike, from [start], from [play_command] and from
    [menu_command], as long as the platform treats the calls alike. *)
Theorem replies_independent_of_requester (u1 u2 : Update) (m1 m2 : Message)
    (usr1 usr2 : User) (w1 w2 : World) :
  message u1 = Some m1 -> effective_user u1 = Some usr1 ->
  message u2 = Some m2 -> effective_user u2 = Some usr2 ->
  pending w1 = pending w2 ->
  (exists added,
     adds_replies (start u1) w1 added /\ adds_replies (start u2) w2 added)
  /\ (exists added,
        adds_replies (play_command u1) w1 added
        /\ adds_replies (play_command u2) w2 added)
  /\ (exists added,
        adds_replies (menu_command u1) w1 added
        /\ adds_replies (menu_command u2) w2 added).
Proof.
  intros Hm1 Hu1 Hm2 Hu2 Hw.
  destruct u1 as [msg1 cq1 eu1], u2 as [msg2 cq2 eu2]; simpl in *; subst.
  destruct w1 as [t1 p1], w2 as [t2 p2]; simpl in Hw; subst p2.
  unfold adds_replies.
  destruct p1 as [|[err|] [|[err'|] rest]];
    (split; [|split]); eexists; split; simpl trace;
    repeat rewrite replies_app; rewrite <- ?app_assoc; reflexivity.
Qed.

Lemma replies_independent_of_requester_witness :
  user_id Sample.alice <> user_id Sample.bob
  /\ exists added,
       adds_replies (menu_command Sample.slash) Sample.fresh_world added
       /\ adds_replies (menu_command Sample.slash_bob) Sample.busy_world added.
Proof.
  split; [discriminate|].
  exact (proj2 (proj2
           (replies_independent_of_requester Sample.slash Sample.slash_bob
              Sample.chat Sample.other_chat Sample.alice Sample.bob
              Sample.fresh_world Sample.busy_world
              eq_refl eq_refl eq_refl eq_refl eq_refl))).
Defined.

(** ** Button presses *)

(** What [button_dispatch] does with a payload that it does not act on. *)
Lemma button_dispatch_ignores (update : Update) (query : CallbackQuery)
    (d : string) (m : Message) (usr : User) (outcomes : list (option string)) :
  effective_user update = Some usr ->
  reliable outcomes ->
  PyStr.startswith d "cmd_" = false \/ known_command (command_name d) = false ->
  button_dispatch update query d m (mkWorld [] outcomes)
  = (Ok tt,
     mkWorld
       [ Called (Answer (query_id query) None false) false;
         Logged INFO ("Button callback received: " ++ d ++ " from user "
                      ++ PyStr.str_int (user_id usr)) ]
       (tl outcomes)).
Proof.
  intros Hu Hrel Hd.
  destruct update as [msg cq eu]; simpl in Hu; subst eu.
  unfold button_dispatch; cbv zeta.
  destruct (PyStr.startswith d "cmd_") eqn:Hp.
  - destruct Hd as [Hd|Hd]; [discriminate|].
    unfold known_command, command_name in Hd.
    apply orb_false_iff in Hd as [Hd Hmenu].
    apply orb_false_iff in Hd as [Hstart Hplay].
    rewrite Hstart, Hplay, Hmenu.
    call_through Hrel; reflexivity.
  - call_through Hrel; reflexivity.
Qed.

(** C7, as the code has it.  On a complete press (payload, message and
    requester are there) and a platform that delivers, [button_callback]
    returns normally and hands over no reply when the payload does not
    start with ["cmd_"], and when it starts with it, holds the prefix
    nowhere else, and the name left by stripping the prefix is none of
    [start], [play], [menu].  The press is acknowledged once, without
    alert: with no notice when the payload is not empty, and with the
    notice that the data is invalid when it is empty, the source taking an
    empty payload for a missing one. *)
Theorem unknown_press_is_noop (update : Update) (query : CallbackQuery)
    (d : string) (m : Message) (usr : User) (outcomes : list (option string)) :
  callback_query update = Some query ->
  data query = Some d ->
  query_message query = Some m ->
  effective_user update = Some usr ->
  reliable outcomes ->
  PyStr.startswith d "cmd_" = false
  \/ (PyStr.startswith d "cmd_" = true
      /\ occurs "cmd_" (PyStr.drop 4 d) = false
      /\ known_command (strip_prefix_spec d) = false) ->
  result_of (button_callback update) outcomes = Ok tt
  /\ replies (events_of (button_callback update) outcomes) = []
  /\ acknowledgements (events_of (button_callback update) outcomes)
     = [ (match d with
          | EmptyString => Some "Invalid button data"
          | String _ _ => None
          end, false) ].
Proof.
  intros Hq Hdata Hm Hu Hrel Hd.
  assert (PyStr.startswith d "cmd_" = false
          \/ known_command (command_name d) = false) as Hd'.
  { destruct Hd as [Hp | (Hp & Hocc & Hk)]; [now left | right].
    destruct (command_name_strips_prefix d Hp Hocc) as [Hname Hstrip].
    now rewrite Hname, <- Hstrip. }
  pose proof (button_dispatch_ignores update query d m usr outcomes Hu Hrel Hd')
    as Hrun.
  destruct update as [msg cq eu]; simpl in Hq; subst cq.
  destruct query as [qid qd qm]; simpl in Hdata, Hm; subst qd qm.
  unfold result_of, events_of, run, button_callback, try_except,
    button_callback_try.
  destruct d as [|c s];
    cbn [callback_query data query_message PyStr.truthy negb].
  - call_through Hrel; repeat split.
  - rewrite Hrun. repeat split.
Qed.

Lemma unknown_press_is_noop_witness :
  (PyStr.startswith "nocommandprefix" "cmd_" = false
   /\ replies (events_of (button_callback (Sample.press "nocommandprefix")) []) = []
   /\ acknowledgements
        (events_of (button_callback (Sample.press "nocommandprefix")) [])
      = [(None, false)])
  /\ (PyStr.startswith "cmd_unknown" "cmd_" = true
      /\ replies (events_of (button_callback (Sample.press "cmd_unknown")) []) = []
      /\ acknowledgements
           (events_of (button_callback (Sample.press "cmd_unknown")) [])
         = [(None, false)]).
Proof.
  split; (split; [reflexivity|]).
  - refine (proj2 (unknown_press_is_noop (Sample.press "nocommandprefix")
              _ "nocommandprefix" Sample.chat Sample.alice []
              eq_refl eq_refl eq_refl eq_refl reliable_nil _)).
    left; reflexivity.
  - refine (proj2 (unknown_press_is_noop (Sample.press "cmd_unknown")
              _ "cmd_unknown" Sample.chat Sample.alice []
              eq_refl eq_refl eq_refl eq_refl reliable_nil _)).
    right; repeat split.
Defined.

(** C7, as the claim states it, fails: the empty payload does not start
    with the prefix, and its press is answered with a notice that tells
    the requester of an error. *)
Lemma empty_payload_press_gets_notice :
  PyStr.startswith "" "cmd_" = false
  /\ run (button_callback (Sample.press "")) []
     = (Ok tt,
        [ Logged WARNING "Received callback_query without data";
          Called (Answer "query-1" (Some "Invalid button data") false) false ])
  /\ acknowledgements (events_of (button_callback (Sample.press "")) [])
     <> [(None, false)].
Proof. repeat split. discriminate. Qed.

(** C3, as the code has it.  A press that carries its callback query is
    acknowledged once when the [try] block of [button_callback] completes,
    and twice when that block raises.  The first acknowledgement is never
    an alert; it carries the notice of what is missing when the payload or
    the message is missing, and no notice otherwise.  The second one is
    the answer of the [except] block: the generic error text, shown as an
    alert.  The press is never left unacknowledged.  With a known
    requester and a platform that delivers, the [try] block completes. *)
Theorem button_press_acknowledgements (update : Update) (query : CallbackQuery)
    (outcomes : list (option string)) :
  callback_query update = Some query ->
  acknowledgements (events_of (button_callback update) outcomes)
  = ((if PyStr.truthy (data query)
      then match query_message query with
           | Some _ => None
           | None => Some "Message not found"
           end
      else Some "Invalid button data"), false)
    :: match result_of (button_callback_try update) outcomes with
       | Ok _ => []
       | Raise _ => [(Some "Sorry, an error occurred. Please try again.", true)]
       end
  /\ length (acknowledgements (events_of (button_callback update) outcomes))
     = match result_of (button_callback_try update) outcomes with
       | Ok _ => 1
       | Raise _ => 2
       end
  /\ (forall usr, effective_user update = Some usr -> reliable outcomes ->
      result_of (button_callback_try update) outcomes = Ok tt).
Proof.
  intros Hq.
  destruct update as [msg cq eu]; simpl in Hq; subst cq.
  destruct query as [qid qd qm].
  unfold result_of, events_of, run, button_callback, try_except,
    button_callback_try.
  cbn [callback_query data query_message].
  destruct qd as [[|c s]|]; cbn [PyStr.truthy negb].
  - split; [|split].
    + next_three_calls outcomes; reflexivity.
    + next_three_calls outcomes; reflexivity.
    + intros usr _ Hrel. call_through Hrel; reflexivity.
  - destruct qm as [m|].
    + unfold button_dispatch; cbv zeta.
      destruct (PyStr.startswith (String c s) "cmd_");
        [ destruct (String.eqb (PyStr.replace (String c s) "cmd_" "") "start");
          [ | destruct (String.eqb (PyStr.replace (String c s) "cmd_" "") "play");
              [ | destruct (String.eqb (PyStr.replace (String c s) "cmd_" "")
                             "menu") ] ] | ].
      all: split; [|split];
        [ destruct eu as [usr|]; next_three_calls outcomes; reflexivity
        | destruct eu as [usr|]; next_three_calls outcomes; reflexivity
        | intros usr Hu Hrel; simpl in Hu; subst eu;
          call_through Hrel; [reflexivity|];
          call_through Hrel; reflexivity ].
    + split; [|split].
      * next_three_calls outcomes; reflexivity.
      * next_three_calls outcomes; reflexivity.
      * intros usr _ Hrel. call_through Hrel; reflexivity.
  - split; [|split].
    + next_three_calls outcomes; reflexivity.
    + next_three_calls outcomes; reflexivity.
    + intros usr _ Hrel. call_through Hrel; reflexivity.
Qed.

Lemma button_press_acknowledgements_witness :
  callback_query (Sample.press "cmd_play")
  = Some (mkCallbackQuery "query-1" (Some "cmd_play") (Some Sample.chat))
  /\ acknowledgements
       (events_of (button_callback (Sample.press "cmd_play"))
          [None; Some "Timed out"])
     = (None, false)
       :: match result_of (button_callback_try (Sample.press "cmd_play"))
                  [None; Some "Timed out"] with
          | Ok _ => []
          | Raise _ =>
              [(Some "Sorry, an error occurred. Please try again.", true)]
          end.
Proof.
  split; [reflexivity|].
  exact (proj1 (button_press_acknowledgements (Sample.press "cmd_play") _
                  [None; Some "Timed out"] eq_refl)).
Defined.

(** C3, as the claim states it, fails: when the reply of a press cannot be
    delivered, the press has been acknowledged and the [except] block
    acknowledges it a second time. *)
Lemma button_press_acknowledged_twice :
  platform_calls
    (events_of (button_callback (Sample.press "cmd_start"))
       [None; Some "Timed out"])
  = [ (Answer "query-1" None false, false);
      (ReplyText Sample.chat (reply_body start_reply) None None, true);
      (Answer "query-1" (Some "Sorry, an error occurred. Please try again.") true,
       false) ]
  /\ length (acknowledgements
               (events_of (button_callback (Sample.press "cmd_start"))
                  [None; Some "Timed out"])) <> 1.
Proof. split; [reflexivity | discriminate]. Qed.

(** C4.  The reply to a press of the [cmd_menu] button is the reply to a
    direct /menu command: same text, same rich-text mode, same buttons in
    the same order with the same payloads. *)
Theorem menu_button_reply_is_menu_reply (press slash : Update)
    (query : CallbackQuery) (m m' : Message) (usr usr' : User)
    (outcomes outcomes' : list (option string)) :
  callback_query press = Some query ->
  data query = Some "cmd_menu" ->
  query_message query = Some m ->
  effective_user press = Some usr ->
  message slash = Some m' ->
  effective_user slash = Some usr' ->
  reliable outcomes -> reliable outcomes' ->
  replies (events_of (button_callback press) outcomes) = [menu_reply]
  /\ replies (events_of (menu_command slash) outcomes') = [menu_reply]
  /\ replies (events_of (button_callback press) outcomes)
     = replies (events_of (menu_command slash) outcomes').
Proof.
  intros Hq Hd Hm Hu Hm' Hu' Hrel Hrel'.
  destruct press as [pmsg cq eu]; simpl in Hq, Hu; subst cq eu.
  destruct query as [qid qd qm]; simpl in Hd, Hm; subst qd qm.
  destruct slash as [smsg scq seu]; simpl in Hm', Hu'; subst smsg seu.
  assert (replies
            (events_of
               (button_callback
                  (mkUpdate pmsg
                     (Some (mkCallbackQuery qid (Some "cmd_menu") (Some m)))
                     (Some usr))) outcomes) = [menu_reply]) as Hpress.
  { call_through Hrel; [reflexivity|]. call_through Hrel; reflexivity. }
  assert (replies
            (events_of (menu_command (mkUpdate (Some m') scq (Some usr')))
               outcomes') = [menu_reply]) as Hslash.
  { call_through Hrel'; reflexivity. }
  rewrite Hpress, Hslash. repeat split.
Qed.

Lemma menu_button_reply_is_menu_reply_witness :
  data (mkCallbackQuery "query-1" (Some "cmd_menu") (Some Sample.chat))
  = Some "cmd_menu"
  /\ replies (events_of (button_callback (Sample.press "cmd_menu")) [])
     = replies (events_of (menu_command Sample.slash_bob) []).
Proof.
  split; [reflexivity|].
  exact (proj2 (proj2
           (menu_button_reply_is_menu_reply (Sample.press "cmd_menu")
              Sample.slash_bob _ Sample.chat Sample.other_chat
              Sample.alice Sample.bob [] []
              eq_refl eq_refl eq_refl eq_refl eq_refl eq_refl
              reliable_nil reliable_nil))).
Defined.

(** C2, at the payload where the code leaves the claim.  Stripping the
    leading prefix of [cmd_cmd_start] gives [cmd_start], which is no
    command, so the claim has the press ignored.  The source deletes every
    occurrence of the prefix, recovers [start], and sends the start
    acknowledgement. *)
Theorem nested_prefix_press_is_dispatched :
  PyStr.startswith "cmd_cmd_start" "cmd_" = true
  /\ strip_prefix_spec "cmd_cmd_start" = "cmd_start"
  /\ known_command (strip_prefix_spec "cmd_cmd_start") = false
  /\ command_name "cmd_cmd_start" = "start"
  /\ replies (events_of (button_callback (Sample.press "cmd_cmd_start")) [])
     = [start_reply].
Proof. repeat split. Qed.

(** ** Startup *)

(** C9.  Whatever the platform does with the two calls, [post_init] first
    asks it to delete the registered commands, then asks it to set
    [BOT_COMMANDS], in that order and nothing else, and returns normally:
    a failure of either call is logged and startup goes on. *)
Theorem post_init_resets_then_publishes (outcomes : list (option string)) :
  result_of post_init outcomes = Ok tt
  /\ exists deleted published,
       platform_calls (events_of post_init outcomes)
       = [ (DeleteMyCommands, deleted); (SetMyCommands BOT_COMMANDS, published) ].
Proof.
  destruct outcomes as [|[err|] [|[err'|] rest]];
    (split; [reflexivity | eexists; eexists; reflexivity]).
Qed.

(** C1, at the input where the code leaves the claim.  When [BOT_TOKEN] is
    not set, the first thing [main] does is to build the application with
    the token embedded in the source: nothing is logged before it and
    startup is not given up. *)
Theorem main_without_token_builds_with_embedded_token (env : Environ)
    (outcomes : list (option string)) :
  is_set env "BOT_TOKEN" = false ->
  exists raised,
    hd_error (events_of (main env) outcomes)
    = Some (Called (BuildApplication EMBEDDED_TOKEN cb_post_init) raised).
Proof.
  intros Hunset. unfold events_of, run, main; cbv zeta.
  rewrite (getenv_unset env "BOT_TOKEN" EMBEDDED_TOKEN Hunset).
  do 7 (destruct outcomes as [|[?|] outcomes];
        [ eexists; reflexivity | eexists; reflexivity | ]).
  eexists; reflexivity.
Qed.

Lemma main_without_token_builds_with_embedded_token_witness :
  is_set Sample.no_token_env "BOT_TOKEN" = false
  /\ exists raised,
       hd_error (events_of (main Sample.no_token_env) [])
       = Some (Called (BuildApplication EMBEDDED_TOKEN cb_post_init) raised).
Proof.
  split; [reflexivity|].
  exact (main_without_token_builds_with_embedded_token Sample.no_token_env []
           eq_refl).
Defined.

(** ** Failure paths of the slash commands *)

(** X1.  Whatever the update holds and whatever the platform does, [start],
    [play_command] and [menu_command] return normally: no exception leaves
    a handler. *)
Theorem slash_handlers_never_raise (update : Update)
    (outcomes : list (option string)) :
  result_of (start update) outcomes = Ok tt
  /\ result_of (play_command update) outcomes = Ok tt
  /\ result_of (menu_command update) outcomes = Ok tt.
Proof.
  destruct update as [[m|] cq [usr|]];
    destruct outcomes as [|[err|] [|[err'|] rest]];
    repeat split.
Qed.

(** X2.  A slash command that arrives without its message is dropped: the
    handler makes no platform call, logs one warning and returns. *)
Theorem slash_without_message_is_dropped (update : Update)
    (outcomes : list (option string)) :
  message update = None ->
  run (start update) outcomes
  = (Ok tt, [Logged WARNING "Received update without message in start handler"])
  /\ run (play_command update) outcomes
     = (Ok tt, [Logged WARNING "Received update without message in play handler"])
  /\ run (menu_command update) outcomes
     = (Ok tt, [Logged WARNING "Received update without message in menu handler"]).
Proof.
  intros Hm. destruct update as [msg cq usr]; simpl in Hm; subst msg.
  repeat split.
Qed.

Lemma slash_without_message_is_dropped_witness :
  message Sample.no_message = None
  /\ run (start Sample.no_message) [Some "Timed out"]
     = (Ok tt,
        [Logged WARNING "Received update without message in start handler"]).
Proof.
  split; [reflexivity|].
  exact (proj1 (slash_without_message_is_dropped Sample.no_message
                  [Some "Timed out"] eq_refl)).
Defined.

(** X3.  When the platform refuses the reply of a slash command, the
    handler logs the error with its text and tries the apology once, in
    the same chat; the apology does not carry the error text, and nothing
    is tried after it, delivered or not. *)
Theorem slash_reply_failure_falls_back_once (update : Update) (m : Message)
    (err : string) (rest : list (option string)) :
  message update = Some m ->
  let outcomes := Some err :: rest in
  let refused := match rest with Some _ :: _ => true | _ => false end in
  platform_calls (events_of (start update) outcomes)
  = [ (ReplyText m (reply_body start_reply) None None, true);
      (ReplyText m (reply_body apology_reply) None None, refused) ]
  /\ In (ERROR, "Error in start handler: " ++ err)
        (log_records (events_of (start update) outcomes))
  /\ platform_calls (events_of (play_command update) outcomes)
     = [ (ReplyText m START_MESSAGE None (reply_keyboard play_reply), true);
         (ReplyText m (reply_body apology_reply) None None, refused) ]
  /\ In (ERROR, "Error in play handler: " ++ err)
        (log_records (events_of (play_command update) outcomes))
  /\ platform_calls (events_of (menu_command update) outcomes)
     = [ (ReplyText m MENU_TITLE (Some "HTML") (reply_keyboard menu_reply), true);
         (ReplyText m (reply_body menu_apology_reply) None None, refused) ]
  /\ In (ERROR, "Error in menu handler: " ++ err)
        (log_records (events_of (menu_command update) outcomes)).
Proof.
  intros Hm. destruct update as [msg cq usr]; simpl in Hm; subst msg.
  destruct rest as [|[err'|] rest]; cbv zeta;
    repeat split; simpl; auto.
Qed.

Lemma slash_reply_failure_falls_back_once_witness :
  message Sample.slash = Some Sample.chat
  /\ platform_calls
       (events_of (start Sample.slash) [Some "Timed out"; Some "Timed out"])
     = [ (ReplyText Sample.chat (reply_body start_reply) None None, true);
         (ReplyText Sample.chat (reply_body apology_reply) None None, true) ].
Proof.
  split; [reflexivity|].
  exact (proj1 (slash_reply_failure_falls_back_once Sample.slash Sample.chat
                  "Timed out" [Some "Timed out"] eq_refl)).
Defined.

(** X4.  In every run a slash handler hands over nothing, its reply, or
    its reply followed by its apology: never more than one fallback, and
    never a text that depends on the error. *)
Theorem slash_replies_are_fixed (update : Update)
    (outcomes : list (option string)) :
  In (replies (events_of (start update) outcomes))
     [ []; [start_reply]; [start_reply; apology_reply] ]
  /\ In (replies (events_of (play_command update) outcomes))
        [ []; [play_reply]; [play_reply; apology_reply] ]
  /\ In (replies (events_of (menu_command update) outcomes))
        [ []; [menu_reply]; [menu_reply; menu_apology_reply] ].
Proof.
  destruct update as [[m|] cq [usr|]];
    destruct outcomes as [|[err|] [|[err'|] rest]];
    repeat split; simpl; auto.
Qed.

(** X5.  A slash command whose sender is unknown gets the reply and then
    the apology as well, although the platform delivered: the log line
    written after the reply reads the id of the sender and raises. *)
Theorem slash_without_sender_gets_reply_and_apology (update : Update)
    (m : Message) (outcomes : list (option string)) :
  message update = Some m ->
  effective_user update = None ->
  reliable outcomes ->
  replies (events_of (start update) outcomes) = [start_reply; apology_reply]
  /\ replies (events_of (play_command update) outcomes)
     = [play_reply; apology_reply]
  /\ replies (events_of (menu_command update) outcomes)
     = [menu_reply; menu_apology_reply].
Proof.
  intros Hm Hu Hrel.
  destruct update as [msg cq usr]; simpl in Hm, Hu; subst msg usr.
  call_through Hrel; [repeat split|].
  call_through Hrel; repeat split.
Qed.

Lemma slash_without_sender_gets_reply_and_apology_witness :
  effective_user Sample.anonymous = None
  /\ replies (events_of (start Sample.anonymous) [])
     = [start_reply; apology_reply].
Proof.
  split; [reflexivity|].
  exact (proj1 (slash_without_sender_gets_reply_and_apology Sample.anonymous
                  Sample.chat [] eq_refl eq_refl reliable_nil)).
Defined.

(** ** Failure paths of the button presses *)

(** Case analysis on the branch that [button_dispatch] takes. *)
Ltac dispatch_branches d :=
  unfold button_dispatch; cbv zeta;
  destruct (PyStr.startswith d "cmd_");
  [ destruct (String.eqb (PyStr.replace d "cmd_" "") "start");
    [ | destruct (String.eqb (PyStr.replace d "cmd_" "") "play");
        [ | destruct (String.eqb (PyStr.replace d "cmd_" "") "menu") ] ] | ].

(** X6.  Whatever the update holds and whatever the platform does,
    [button_callback] returns normally. *)
Theorem button_callback_never_raises (update : Update)
    (outcomes : list (option string)) :
  result_of (button_callback update) outcomes = Ok tt.
Proof.
  destruct update as [msg [[qid qd qm]|] eu]; [|reflexivity].
  unfold result_of, run, button_callback, try_except, button_callback_try.
  cbn [callback_query data query_message].
  destruct qd as [[|c s]|]; cbn [PyStr.truthy negb];
    try (next_three_calls outcomes; reflexivity).
  destruct qm as [m|]; [|next_three_calls outcomes; reflexivity].
  dispatch_branches (String c s);
    destruct eu as [usr|]; next_three_calls outcomes; reflexivity.
Qed.

(** X7.  An update without callback query makes [button_callback] log a
    warning and nothing else: no platform call, no acknowledgement. *)
Theorem press_without_query_is_dropped (update : Update)
    (outcomes : list (option string)) :
  callback_query update = None ->
  run (button_callback update) outcomes
  = (Ok tt, [Logged WARNING "Received update without callback_query"]).
Proof.
  intros Hq. destruct update as [msg cq eu]; simpl in Hq; subst cq.
  reflexivity.
Qed.

Lemma press_without_query_is_dropped_witness :
  callback_query Sample.slash = None
  /\ run (button_callback Sample.slash) [Some "Timed out"]
     = (Ok tt, [Logged WARNING "Received update without callback_query"]).
Proof.
  split; [reflexivity|].
  exact (press_without_query_is_dropped Sample.slash [Some "Timed out"] eq_refl).
Defined.

(** X8.  The first platform call that a press triggers is always a plain
    acknowledgement of that very query: nothing is sent to the chat before
    the press has been answered. *)
Theorem press_is_acknowledged_first (update : Update) (query : CallbackQuery)
    (outcomes : list (option string)) :
  callback_query update = Some query ->
  exists notice raised,
    hd_error (platform_calls (events_of (button_callback update) outcomes))
    = Some (Answer (query_id query) notice false, raised).
Proof.
  intros Hq. destruct update as [msg cq eu]; simpl in Hq; subst cq.
  destruct query as [qid qd qm].
  unfold events_of, run, button_callback, try_except, button_callback_try.
  cbn [callback_query data query_message].
  destruct qd as [[|c s]|]; cbn [PyStr.truthy negb];
    try (next_three_calls outcomes; eexists; eexists; reflexivity).
  destruct qm as [m|];
    [|next_three_calls outcomes; eexists; eexists; reflexivity].
  dispatch_branches (String c s);
    destruct eu as [usr|]; next_three_calls outcomes;
    eexists; eexists; reflexivity.
Qed.

Lemma press_is_acknowledged_first_witness :
  callback_query (Sample.press "cmd_play")
  = Some (mkCallbackQuery "query-1" (Some "cmd_play") (Some Sample.chat))
  /\ exists notice raised,
       hd_error
         (platform_calls
            (events_of (button_callback (Sample.press "cmd_play"))
               [Some "Timed out"]))
       = Some (Answer "query-1" notice false, raised).
Proof.
  split; [reflexivity|].
  exact (press_is_acknowledged_first (Sample.press "cmd_play") _
           [Some "Timed out"] eq_refl).
Defined.

(** Picking the member of an explicit list that a computed value is. *)
Ltac one_of :=
  first [ left; reflexivity | right; one_of ].

Ltac all_of :=
  repeat (apply Forall_cons; [one_of|]); apply Forall_nil.

(** X9.  In every run [button_callback] hands over at most one reply, one
    of the three that the commands build, and never an apology; every
    notice that it attaches to an acknowledgement is one of four fixed
    ones.  No text of an error reaches the requester. *)
Theorem press_exposes_no_error_text (update : Update)
    (outcomes : list (option string)) :
  In (replies (events_of (button_callback update) outcomes))
     [ []; [start_reply]; [play_reply]; [menu_reply] ]
  /\ Forall (fun ack => In ack fixed_acknowledgements)
       (acknowledgements (events_of (button_callback update) outcomes)).
Proof.
  destruct update as [msg [[qid qd qm]|] eu];
    [|split; [left; reflexivity | constructor]].
  unfold events_of, run, button_callback, try_except, button_callback_try.
  cbn [callback_query data query_message].
  destruct qd as [[|c s]|]; cbn [PyStr.truthy negb].
  - next_three_calls outcomes; (split; [one_of | all_of]).
  - destruct qm as [m|].
    + dispatch_branches (String c s);
        destruct eu as [usr|]; next_three_calls outcomes;
        (split; [one_of | all_of]).
    + next_three_calls outcomes; (split; [one_of | all_of]).
  - next_three_calls outcomes; (split; [one_of | all_of]).
Qed.

(** X10.  The dispatch of a complete press, on a platform that delivers:
    the press is acknowledged once, plainly, and the replies are those of
    the branch that the recovered name selects: the start, play or menu
    reply for a payload that starts with the prefix and whose recovered
    name is that command, nothing otherwise. *)
Theorem complete_press_is_dispatched (update : Update) (query : CallbackQuery)
    (d : string) (m : Message) (usr : User) (outcomes : list (option string)) :
  callback_query update = Some query ->
  data query = Some d -> d <> "" ->
  query_message query = Some m ->
  effective_user update = Some usr ->
  reliable outcomes ->
  replies (events_of (button_callback update) outcomes) = dispatched_replies d
  /\ acknowledgements (events_of (button_callback update) outcomes)
     = [(None, false)].
Proof.
  intros Hq Hdata Hne Hm Hu Hrel.
  destruct update as [msg cq eu]; simpl in Hq, Hu; subst cq eu.
  destruct query as [qid qd qm]; simpl in Hdata, Hm; subst qd qm.
  destruct d as [|c s]; [congruence|].
  unfold events_of, run, button_callback, try_except, button_callback_try,
    dispatched_replies, command_name.
  cbn [callback_query data query_message PyStr.truthy negb].
  dispatch_branches (String c s);
    (call_through Hrel; [split; reflexivity|]);
    (call_through Hrel; split; reflexivity).
Qed.

Lemma complete_press_is_dispatched_witness :
  data (mkCallbackQuery "query-1" (Some "cmd_play") (Some Sample.chat))
  = Some "cmd_play"
  /\ replies (events_of (button_callback (Sample.press "cmd_play")) [])
     = [play_reply]
  /\ acknowledgements (events_of (button_callback (Sample.press "cmd_play")) [])
     = [(None, false)].
Proof.
  split; [reflexivity|].
  refine (complete_press_is_dispatched (Sample.press "cmd_play") _ "cmd_play"
            Sample.chat Sample.alice [] eq_refl eq_refl _ eq_refl eq_refl
            reliable_nil).
  discriminate.
Defined.

(** X11.  Pressing the menu button of [start] or of [play] gives what the
    slash command gives: the requester receives the same single reply. *)
Theorem start_and_play_buttons_reply_as_commands (press_start press_play slash
    : Update) (q q' : CallbackQuery) (m m' m'' : Message) (usr usr' usr'' : User)
    (outcomes : list (option string)) :
  callback_query press_start = Some q -> data q = Some "cmd_start" ->
  query_message q = Some m -> effective_user press_start = Some usr ->
  callback_query press_play = Some q' -> data q' = Some "cmd_play" ->
  query_message q' = Some m' -> effective_user press_play = Some usr' ->
  message slash = Some m'' -> effective_user slash = Some usr'' ->
  reliable outcomes ->
  replies (events_of (button_callback press_start) outcomes)
  = replies (events_of (start slash) outcomes)
  /\ replies (events_of (button_callback press_play) outcomes)
     = replies (events_of (play_command slash) outcomes)
  /\ length (replies (events_of (button_callback press_start) outcomes)) = 1
  /\ length (replies (events_of (button_callback press_play) outcomes)) = 1.
Proof.
  intros Hq Hd Hm Hu Hq' Hd' Hm' Hu' Hm'' Hu'' Hrel.
  destruct press_start as [pmsg cq eu]; simpl in Hq, Hu; subst cq eu.
  destruct q as [qid qd qm]; simpl in Hd, Hm; subst qd qm.
  destruct press_play as [pmsg' cq' eu']; simpl in Hq', Hu'; subst cq' eu'.
  destruct q' as [qid' qd' qm']; simpl in Hd', Hm'; subst qd' qm'.
  destruct slash as [smsg scq seu]; simpl in Hm'', Hu''; subst smsg seu.
  call_through Hrel; [repeat split|].
  call_through Hrel; repeat split.
Qed.

Lemma start_and_play_buttons_reply_as_commands_witness :
  data (mkCallbackQuery "query-1" (Some "cmd_start") (Some Sample.chat))
  = Some "cmd_start"
  /\ replies (events_of (button_callback (Sample.press "cmd_start")) [])
     = replies (events_of (start Sample.slash_bob) []).
Proof.
  split; [reflexivity|].
  exact (proj1
           (start_and_play_buttons_reply_as_commands
              (Sample.press "cmd_start") (Sample.press "cmd_play")
              Sample.slash_bob _ _ Sample.chat Sample.chat Sample.other_chat
              Sample.alice Sample.alice Sample.bob []
              eq_refl eq_refl eq_refl eq_refl eq_refl eq_refl eq_refl eq_refl
              eq_refl eq_refl reliable_nil)).
Defined.

(** X12.  A press that lacks its payload (absent or empty) or its message
    is never acted on, whatever the payload says and whatever the platform
    does: no reply is handed over.  The first acknowledgement carries the
    notice of what is missing, the payload being checked first. *)
Theorem incomplete_press_gets_notice_only (update : Update)
    (query : CallbackQuery) (outcomes : list (option string)) :
  callback_query update = Some query ->
  PyStr.truthy (data query) = false \/ query_message query = None ->
  replies (events_of (button_callback update) outcomes) = []
  /\ hd_error (acknowledgements (events_of (button_callback update) outcomes))
     = Some (Some (if PyStr.truthy (data query)
                   then "Message not found"
                   else "Invalid button data"), false).
Proof.
  intros Hq Hmissing.
  destruct update as [msg cq eu]; simpl in Hq; subst cq.
  destruct query as [qid qd qm]; simpl in Hmissing.
  unfold events_of, run, button_callback, try_except, button_callback_try.
  cbn [callback_query data query_message].
  destruct qd as [[|c s]|]; cbn [PyStr.truthy negb] in *.
  - next_three_calls outcomes; split; reflexivity.
  - destruct Hmissing as [Hd|Hm]; [discriminate|]. subst qm.
    next_three_calls outcomes; split; reflexivity.
  - next_three_calls outcomes; split; reflexivity.
Qed.

Lemma incomplete_press_gets_notice_only_witness :
  query_message (mkCallbackQuery "query-3" (Some "cmd_start") None) = None
  /\ replies (events_of (button_callback (Sample.orphan_press "cmd_start")) [])
     = []
  /\ hd_error
       (acknowledgements
          (events_of (button_callback (Sample.orphan_press "cmd_start")) []))
     = Some (Some "Message not found", false).
Proof.
  split; [reflexivity|].
  exact (incomplete_press_gets_notice_only (Sample.orphan_press "cmd_start") _
           [] eq_refl (or_intror eq_refl)).
Defined.

(** X13.  A complete press whose sender is unknown is acknowledged and
    then given up: the log line after the acknowledgement reads the id of
    the sender and raises, so that no reply is handed over, even for a
    known command, and the requester gets the error alert. *)
Theorem press_without_sender_gets_alert (update : Update) (query : CallbackQuery)
    (d : string) (m : Message) (outcomes : list (option string)) :
  callback_query update = Some query ->
  data query = Some d -> d <> "" ->
  query_message query = Some m ->
  effective_user update = None ->
  reliable outcomes ->
  replies (events_of (button_callback update) outcomes) = []
  /\ acknowledgements (events_of (button_callback update) outcomes)
     = [ (None, false);
         (Some "Sorry, an error occurred. Please try again.", true) ].
Proof.
  intros Hq Hdata Hne Hm Hu Hrel.
  destruct update as [msg cq eu]; simpl in Hq, Hu; subst cq eu.
  destruct query as [qid qd qm]; simpl in Hdata, Hm; subst qd qm.
  destruct d as [|c s]; [congruence|].
  unfold events_of, run, button_callback, try_except, button_callback_try.
  cbn [callback_query data query_message PyStr.truthy negb].
  unfold button_dispatch.
  call_through Hrel; [split; reflexivity|].
  call_through Hrel; split; reflexivity.
Qed.

Lemma press_without_sender_gets_alert_witness :
  effective_user (Sample.anonymous_press "cmd_start") = None
  /\ replies
       (events_of (button_callback (Sample.anonymous_press "cmd_start")) [])
     = []
  /\ acknowledgements
       (events_of (button_callback (Sample.anonymous_press "cmd_start")) [])
     = [ (None, false);
         (Some "Sorry, an error occurred. Please try again.", true) ].
Proof.
  split; [reflexivity|].
  refine (press_without_sender_gets_alert (Sample.anonymous_press "cmd_start")
            _ "cmd_start" Sample.chat [] eq_refl eq_refl _ eq_refl eq_refl
            reliable_nil).
  discriminate.
Defined.

(** X14.  When the payload starts with the prefix and the prefix does not
    occur again in what follows it, the name that [button_callback]
    recovers is the payload without its leading prefix: there, deleting
    every occurrence and stripping the prefix agree. *)
Theorem recovered_name_is_stripped_payload (d : string) :
  PyStr.startswith d "cmd_" = true ->
  occurs "cmd_" (PyStr.drop 4 d) = false ->
  command_name d = strip_prefix_spec d
  /\ command_name d = PyStr.drop 4 d.
Proof.
  intros Hp Hocc.
  assert (command_name d = PyStr.drop 4 d) as Hname.
  { pose proof (startswith_cmd_inv d Hp) as Hd.
    remember (PyStr.drop 4 d) as r eqn:Hr. rewrite Hd.
    unfold command_name, PyStr.replace. cbn.
    replace (String.prefix "" r) with true by (destruct r; reflexivity).
    now apply replace_scan_without_occurrence. }
  split; [|exact Hname].
  unfold strip_prefix_spec. rewrite Hp. exact Hname.
Qed.

Lemma recovered_name_is_stripped_payload_witness :
  PyStr.startswith "cmd_play" "cmd_" = true
  /\ command_name "cmd_play" = strip_prefix_spec "cmd_play"
  /\ command_name "cmd_play" = PyStr.drop 4 "cmd_play".
Proof.
  split; [reflexivity|].
  exact (recovered_name_is_stripped_payload "cmd_play" eq_refl eq_refl).
Defined.

(** ** Failure paths of the startup *)

(** X15.  Whatever the environment holds and whatever the library does,
    [main] returns normally: a failure to start is reported, not raised. *)
Theorem main_never_raises (env : Environ) (outcomes : list (option string)) :
  result_of (main env) outcomes = Ok tt.
Proof.
  unfold result_of, run, main; cbv zeta.
  destruct (getenv env "BOT_TOKEN" EMBEDDED_TOKEN) as [|c token];
    [reflexivity|].
  cbn [PyStr.truthy negb].
  do 7 (destruct outcomes as [|[?|] outcomes]; [reflexivity | reflexivity | ]).
  reflexivity.
Qed.

(** X16.  With a token that is not empty and a library that lets every
    call through, [main] builds the application with that token and the
    [post_init] hook, registers the three command handlers, the callback
    handler and the error handler, and only then starts polling, dropping
    the pending updates; it announces the start and logs no error. *)
Theorem main_starts_in_order (env : Environ) (token : string)
    (outcomes : list (option string)) :
  getenv env "BOT_TOKEN" EMBEDDED_TOKEN = token ->
  token <> "" ->
  reliable outcomes ->
  platform_calls (events_of (main env) outcomes)
  = succeeded (startup_calls token)
  /\ log_records (events_of (main env) outcomes) = [(INFO, "Bot is starting...")]
  /\ In (Printed "Bot is running...") (events_of (main env) outcomes).
Proof.
  intros Htoken Hne Hrel.
  unfold events_of, run, main; cbv zeta. rewrite Htoken.
  destruct token as [|c token]; [congruence|].
  cbn [PyStr.truthy negb].
  do 7 (call_through Hrel; [repeat split; simpl; auto 10|]).
  repeat split; simpl; auto 10.
Qed.

Lemma main_starts_in_order_witness :
  getenv Sample.token_env "BOT_TOKEN" EMBEDDED_TOKEN = "123:abc"
  /\ platform_calls (events_of (main Sample.token_env) [])
     = succeeded (startup_calls "123:abc").
Proof.
  split; [reflexivity|].
  refine (proj1 (main_starts_in_order Sample.token_env "123:abc" []
                   eq_refl _ reliable_nil)).
  discriminate.
Defined.




(** X18.  A token that is set but empty stops [main] at once: the
    condition is logged as an error and no call is made, the application
    is not built. *)
Theorem main_with_empty_token_stops (env : Environ)
    (outcomes : list (option string)) :
  getenv env "BOT_TOKEN" EMBEDDED_TOKEN = "" ->
  run (main env) outcomes
  = (Ok tt,
     [ Logged ERROR
         "Bot token not found! Please set BOT_TOKEN environment variable." ]).
Proof.
  intros Htoken. unfold run, main; cbv zeta. rewrite Htoken. reflexivity.
Qed.

Lemma main_with_empty_token_stops_witness :
  getenv Sample.empty_token_env "BOT_TOKEN" EMBEDDED_TOKEN = ""
  /\ run (main Sample.empty_token_env) [None]
     = (Ok tt,
        [ Logged ERROR
            "Bot token not found! Please set BOT_TOKEN environment variable." ]).
Proof.
  split; [reflexivity|].
  exact (main_with_empty_token_stops Sample.empty_token_env [None] eq_refl).
Defined.

(** X19.  What [post_init] logs: a failed deletion of the old commands is
    only a warning, carrying the error text; then the outcome of setting
    the commands alone decides between the success record and the error
    record, so that success is reported also after a failed deletion. *)
Theorem post_init_log (deletion publication : option string)
    (rest : list (option string)) :
  log_records (events_of post_init (deletion :: publication :: rest))
  = List.app
      match deletion with
      | Some err =>
          [ (WARNING,
             "Could not delete old commands (this is okay if none exist): "
             ++ err) ]
      | None => []
      end
      [ match publication with
        | Some err => (ERROR, "Error in post_init: " ++ err)
        | None =>
            (INFO,
             "Bot commands menu initialized successfully - start, play and menu commands set")
        end ].
Proof. destruct deletion, publication; reflexivity. Qed.

(** ** The error handler *)

(** X20.  [error_handler] logs the exception with its text first, then
    sends the fixed apology, once, exactly when the update is an [Update]
    that has a message; it returns normally even when the apology cannot
    be delivered, and the apology does not carry the text of the
    exception. *)
Theorem error_handler_apologises_once (update : PyObject) (context_error : Exn)
    (outcomes : list (option string)) :
  result_of (error_handler update context_error) outcomes = Ok tt
  /\ hd_error (events_of (error_handler update context_error) outcomes)
     = Some (Logged ERROR
               ("Exception while handling an update: " ++ str_exn context_error))
  /\ replies (events_of (error_handler update context_error) outcomes)
     = match update with
       | UpdateObject u =>
           match message u with
           | Some _ => [unexpected_apology_reply]
           | None => []
           end
       | OtherObject => []
       end
  /\ length (platform_calls (events_of (error_handler update context_error)
                               outcomes))
     = length (replies (events_of (error_handler update context_error)
                          outcomes)).
Proof.
  destruct update as [[[m|] cq eu]|];
    destruct outcomes as [|[err|] rest]; repeat split.
Qed.

(** X21.  When the apology of [error_handler] cannot be delivered, the
    failure is logged and nothing else is tried. *)
Theorem error_handler_gives_up_after_failed_apology (u : Update) (m : Message)
    (context_error : Exn) (err : string) (rest : list (option string)) :
  message u = Some m ->
  run (error_handler (UpdateObject u) context_error) (Some err :: rest)
  = (Ok tt,
     [ Logged ERROR
         ("Exception while handling an update: " ++ str_exn context_error);
       Called (ReplyText m (reply_body unexpected_apology_reply) None None) true;
       Logged ERROR "Failed to send error message to user" ]).
Proof.
  intros Hm. destruct u as [msg cq eu]; simpl in Hm; subst msg. reflexivity.
Qed.

Lemma error_handler_gives_up_after_failed_apology_witness :
  message Sample.slash = Some Sample.chat
  /\ run (error_handler (UpdateObject Sample.slash) (TelegramError "Bad Gateway"))
       [Some "Timed out"]
     = (Ok tt,
        [ Logged ERROR "Exception while handling an update: Bad Gateway";
          Called
            (ReplyText Sample.chat (reply_body unexpected_apology_reply)
               None None) true;
          Logged ERROR "Failed to send error message to user" ]).
Proof.
  split; [reflexivity|].
  exact (error_handler_gives_up_after_failed_apology Sample.slash Sample.chat
           (TelegramError "Bad Gateway") "Timed out" [] eq_refl).
Defined.

(** ** The menu and the presses of its buttons *)

Lemma command_name_of_prefixed (name : string) :
  occurs "cmd_" name = false -> command_name ("cmd_" ++ name) = name.
Proof.
  intros Hocc. unfold command_name, PyStr.replace. cbn.
  replace (String.prefix "" name) with true by (destruct name; reflexivity).
  now apply replace_scan_without_occurrence.
Qed.

(** X22.  The payload that the menu attaches to the button of a command
    comes back as that command: [button_callback] accepts it as a command
    payload and recovers the name of the command from it, for every
    command whose name does not itself contain the prefix. *)
Theorem menu_payload_round_trip (cmd : BotCommand) :
  occurs "cmd_" (command cmd) = false ->
  exists payload,
    callback_data (menu_button cmd) = Some payload
    /\ PyStr.startswith payload "cmd_" = true
    /\ command_name payload = command cmd.
Proof.
  intros Hocc. exists ("cmd_" ++ command cmd). split; [reflexivity|]. split.
  - unfold PyStr.startswith. cbn. destruct (command cmd); reflexivity.
  - now apply command_name_of_prefixed.
Qed.

Lemma menu_payload_round_trip_witness :
  occurs "cmd_" (command (mkBotCommand "play" "Open Lottery")) = false
  /\ exists payload,
       callback_data (menu_button (mkBotCommand "play" "Open Lottery"))
       = Some payload
       /\ PyStr.startswith payload "cmd_" = true
       /\ command_name payload = "play".
Proof.
  split; [reflexivity|].
  exact (menu_payload_round_trip (mkBotCommand "play" "Open Lottery") eq_refl).
Defined.

(** X23.  The loop that builds the menu keyboard, run over any list of
    commands, yields one row per command, in the order of the list, each
    row holding the single button of its command. *)
Theorem menu_keyboard_follows_commands (cmds : list BotCommand) :
  fold_left append_command_row cmds [] = map (fun cmd => [menu_button cmd]) cmds
  /\ length (fold_left append_command_row cmds []) = length cmds
  /\ concat (fold_left append_command_row cmds []) = map menu_button cmds.
Proof.
  rewrite menu_loop. cbn [app]. split; [reflexivity|]. split.
  - apply length_map.
  - apply (concat_singleton_rows menu_button).
Qed.
